(** * Phaser.Physics.Matter.Components.SetBody

    A shallow embedding of [src/physics/matter-js/components/SetBody.js]:
    the four shape builders, the dispatcher [setBody] and the attachment
    operation [setExistingBody], over an explicit store of game objects,
    a heap of Matter bodies and the membership set of the simulation
    world. *)

From Stdlib Require Import QArith.
From stdpp Require Import gmap strings list fin_maps.

Local Open Scope string_scope.

(** ** JavaScript values *)

(** Numbers.  A finite number is a rational kept in lowest terms, so that
    two equal numbers are equal terms; [NaN] is the only non-finite number
    the component can produce from finite inputs. *)
Inductive jsnum :=
| Fin (q : Q)
| NaN.

Definition point : Type := jsnum * jsnum.

#[local] Set Warnings "-register-all".
Inductive value :=
| VUndefined
| VNull
| VBool (b : bool)
| VNum (n : jsnum)
| VStr (s : string)
| VPoints (pts : list point)
| VObj (fields : list (string * value)).

#[local] Set Warnings "register-all".

Definition num (z : Z) : value := VNum (Fin (inject_Z z)).

(** The [config] argument of [setBody]: any value, an object being a map
    from property names to values. *)
Inductive config :=
| CUndefined
| CNull
| CBool (b : bool)
| CNum (n : jsnum)
| CStr (s : string)
| CObj (fields : gmap string value).

Definition num_truthy (n : jsnum) : bool :=
  match n with
  | Fin q => negb (Qeq_bool q 0)
  | NaN => false
  end.

Definition str_truthy (s : string) : bool :=
  match s with
  | EmptyString => false
  | String _ _ => true
  end.

(** ToBoolean. *)
Definition truthy (v : value) : bool :=
  match v with
  | VUndefined | VNull => false
  | VBool b => b
  | VNum n => num_truthy n
  | VStr s => str_truthy s
  | VPoints _ | VObj _ => true
  end.

Definition config_truthy (c : config) : bool :=
  match c with
  | CUndefined | CNull => false
  | CBool b => b
  | CNum n => num_truthy n
  | CStr s => str_truthy s
  | CObj _ => true
  end.

(** Arithmetic used by the component: [Math.max(a, b)], [a / 2], [a + b]. *)
Definition js_max (a b : jsnum) : jsnum :=
  match a, b with
  | Fin x, Fin y => Fin (if Qle_bool x y then y else x)
  | _, _ => NaN
  end.

Definition js_half (a : jsnum) : jsnum :=
  match a with
  | Fin x => Fin (Qred (x / 2))
  | NaN => NaN
  end.

Definition js_add (a b : jsnum) : jsnum :=
  match a, b with
  | Fin x, Fin y => Fin (Qred (x + y))
  | _, _ => NaN
  end.

Local Close Scope Q_scope.

(** ** Game objects, bodies and the world *)

Definition eref := nat.   (* a game object (host entity) *)
Definition ref := nat.    (* a Matter body or body part *)

(** The [gameObject] property of a body part. *)
Inductive backref :=
| BUnset
| BNull
| BEntity (e : eref).

(** The call of the body factory that built a body. *)
Inductive geometry :=
| Rectangle (x y w h options : value)
| Circle (x y radius options maxSides : value)
| Trapezoid (x y w h slope options : value)
| Polygon (x y sides radius options : value)
| FromVertices (x y verts options flagInternal removeCollinear minimumArea : value)
| FromPhysicsEditor (x y w h : value) (cfg : gmap string value).

Record obj := Obj {
  parts : list ref;
  gameObject : backref;
  destroy : option eref;        (* the closure [destroy], by the [_this] it captured *)
  has_temp : bool;              (* hasOwnProperty('temp') *)
  geom : option geometry;
  vertices : option value;      (* geometry installed by Body.setVertices *)
  centerOffset : jsnum * jsnum
}.

Record entity := Entity {
  body : option ref;
  width : value;
  height : value;
  tempVec2 : value * value;
  originComponent : bool;       (* truthiness of [_originComponent] *)
  originX : jsnum;
  originY : jsnum
}.

Record state := State {
  entities : gmap eref entity;
  heap : gmap ref obj;
  world : gset ref
}.

Definition blank_obj : obj :=
  Obj [] BUnset None false None None (NaN, NaN).

Definition blank_entity : entity :=
  Entity None VUndefined VUndefined (VUndefined, VUndefined) false NaN NaN.

(** Reading through a reference.  Every reference the program holds denotes
    an object; one that was never written reads as a blank object. *)
Definition obj_at (s : state) (r : ref) : obj := default blank_obj (heap s !! r).
Definition ent_at (s : state) (e : eref) : entity := default blank_entity (entities s !! e).

Definition upd_obj (r : ref) (f : obj → obj) (s : state) : state :=
  State (entities s) (<[r := f (obj_at s r)]> (heap s)) (world s).

Definition upd_ent (e : eref) (f : entity → entity) (s : state) : state :=
  State (<[e := f (ent_at s e)]> (entities s)) (heap s) (world s).

Definition set_gameObject (g : backref) (o : obj) : obj :=
  Obj (parts o) g (destroy o) (has_temp o) (geom o) (vertices o) (centerOffset o).

Definition set_destroy (d : option eref) (o : obj) : obj :=
  Obj (parts o) (gameObject o) d (has_temp o) (geom o) (vertices o) (centerOffset o).

Definition set_vertices (v : value) (o : obj) : obj :=
  Obj (parts o) (gameObject o) (destroy o) (has_temp o) (geom o) (Some v) (centerOffset o).

Definition set_body (b : option ref) (en : entity) : entity :=
  Entity b (width en) (height en) (tempVec2 en) (originComponent en) (originX en) (originY en).

Definition set_origin (x y : jsnum) (en : entity) : entity :=
  Entity (body en) (width en) (height en) (tempVec2 en) (originComponent en) x y.

(** Modelled from the spec: the simulation world ([this.world], Phaser's
    Matter World) is not part of this file.  Its [add] and [remove] are
    membership operations, and removing a non-member is a no-op. *)
Definition world_add (b : ref) (s : state) : state :=
  State (entities s) (heap s) ({[b]} ∪ world s).

Definition world_remove (b : ref) (s : state) : state :=
  State (entities s) (heap s) (world s ∖ {[b]}).

Definition in_world (b : ref) (s : state) : bool := bool_decide (b ∈ world s).

(** Modelled from the spec: [this.centerOffsetX] and [this.centerOffsetY]
    are getters of the host entity defined elsewhere; they report the
    computed center offset of the entity's active body. *)
Definition centerOffsetOf (s : state) (e : eref) : jsnum * jsnum :=
  match body (ent_at s e) with
  | Some b => centerOffset (obj_at s b)
  | None => (NaN, NaN)
  end.

(** Modelled from the spec: [this.setOrigin(x, y)] is the entity's generic
    origin component; it stores the new origin. *)
Definition setOrigin (e : eref) (x y : jsnum) (s : state) : state :=
  upd_ent e (set_origin x y) s.

(** ** setExistingBody *)

(** [for (i = 0; i < body.parts.length; i++) body.parts[i].gameObject = this] *)
Definition link_parts (this : eref) (ps : list ref) (s : state) : state :=
  foldl (λ acc p, upd_obj p (set_gameObject (BEntity this)) acc) s ps.

Definition setExistingBody (this : eref) (b : ref) (addToWorld : value)
    (s : state) : eref * state :=
  let addToWorld :=
    match addToWorld with VUndefined => VBool true | v => v end in
  let s :=
    match body (ent_at s this) with
    | Some old => world_remove old s
    | None => s
    end in
  let s := upd_ent this (set_body (Some b)) s in
  let s := link_parts this (parts (obj_at s b)) s in
  let s := upd_obj b (set_destroy (Some this)) s in
  let s := if truthy addToWorld then world_add b s else s in
  let s :=
    if originComponent (ent_at s this) then
      setOrigin this
        (js_add (originX (ent_at s this)) (centerOffsetOf s this).1)
        (js_add (originY (ent_at s this)) (centerOffsetOf s this).2) s
    else s in
  (this, s).

(** The body of the closure installed as [body.destroy]:
    [_this.world.remove(_this.body); _this.body.gameObject = null].
    With no body in the slot the assignment raises a TypeError. *)
Definition destroy_hook (_this : eref) (s : state) : option state :=
  match body (ent_at s _this) with
  | Some cur => Some (upd_obj cur (set_gameObject BNull) (world_remove cur s))
  | None => None
  end.

(** [b.destroy()]: calling an unset slot raises a TypeError. *)
Definition call_destroy (b : ref) (s : state) : option state :=
  match destroy (obj_at s b) with
  | Some _this => destroy_hook _this s
  | None => None
  end.

(** ** Collaborators of the dispatcher *)

(** What the dispatcher needs from code outside this file and is not fixed
    by the specification: Matter's path parser [Vertices.fromPath], the
    conversion of a string to a number (applied by [Math.max] to a string
    operand), and, for a body built by the factory, its computed center
    offset and whether it carries the [temp] marker. *)
Class Collaborators := {
  fromPath : string → list point;
  StringToNumber : string → jsnum;
  centerOf : geometry → jsnum * jsnum;
  transient : geometry → bool
}.

Section Dispatcher.
Context `{!Collaborators}.

(** ToNumber.  An array of points converts through its string form, which
    is empty for the empty array and not numeric otherwise; so does a plain
    object. *)
Definition ToNumber (v : value) : jsnum :=
  match v with
  | VUndefined => NaN
  | VNull => Fin (inject_Z 0)
  | VBool b => Fin (inject_Z (if b then 1 else 0))
  | VNum n => n
  | VStr s => StringToNumber s
  | VPoints [] => Fin (inject_Z 0)
  | VPoints (_ :: _) => NaN
  | VObj _ => NaN
  end.

(** [Math.max(a, b) / 2] *)
Definition half_max (a b : value) : value :=
  VNum (js_half (js_max (ToNumber a) (ToNumber b))).

(** Modelled from the spec: [GetFastValue] (utils/object/GetFastValue) is
    not part of this file.  An explicit field wins over the default; a
    field that is missing, or holds [undefined], yields the default, and so
    does a source that is not an object. *)
Definition GetFastValue (source : config) (key : string) (d : value) : value :=
  match source with
  | CObj f =>
      match f !! key with
      | Some VUndefined | None => d
      | Some v => v
      end
  | _ => d
  end.

(** The property read [config.addToWorld]. *)
Definition get_prop (source : config) (key : string) : value :=
  match source with
  | CObj f => default VUndefined (f !! key)
  | _ => VUndefined
  end.

(** Modelled from the spec: the body factory ([lib/factory/Bodies]) and the
    external-format parser ([PhysicsEditorParser.parseBody]) are not part
    of this file.  Each call returns a new body handle with a non-empty
    sequence of parts (here the body itself), an unset [destroy] slot and a
    computed center offset; the handle records the call that built it. *)
Definition new_body (g : geometry) (s : state) : ref * state :=
  let r := fresh (dom (heap s)) in
  (r, State (entities s)
        (<[r := Obj [r] BUnset None (transient g) (Some g) None (centerOf g)]> (heap s))
        (world s)).

(** Modelled from the spec: [Body.setVertices(body, points)] replaces the
    geometry of an existing body handle in place. *)
Definition Body_setVertices (b : ref) (verts : value) (s : state) : state :=
  upd_obj b (set_vertices verts) s.

(** The labels of [switch (shapeType)], compared with [===]. *)
Inductive shape_case :=
| KRectangle | KCircle | KTrapezoid | KPolygon | KFromVertices | KFromPhysicsEditor.

Definition switch_case (shapeType : value) : option shape_case :=
  match shapeType with
  | VStr t =>
      if String.eqb t "rectangle" then Some KRectangle
      else if String.eqb t "circle" then Some KCircle
      else if String.eqb t "trapezoid" then Some KTrapezoid
      else if String.eqb t "polygon" then Some KPolygon
      else if String.eqb t "fromVertices" then Some KFromVertices
      else if String.eqb t "fromVerts" then Some KFromVertices
      else if String.eqb t "fromPhysicsEditor" then Some KFromPhysicsEditor
      else None
  | _ => None
  end.

Definition config_fields (c : config) : gmap string value :=
  match c with
  | CObj f => f
  | _ => ∅
  end.

(** The [switch] of [setBody]: the body it produces, if any. *)
Definition build_body (this : eref) (cfg : config) (options : value)
    (s : state) : option ref * state :=
  let en := ent_at s this in
  let shapeType := GetFastValue cfg "type" (VStr "rectangle") in
  let bodyX := GetFastValue cfg "x" (tempVec2 en).1 in
  let bodyY := GetFastValue cfg "y" (tempVec2 en).2 in
  let bodyWidth := GetFastValue cfg "width" (width en) in
  let bodyHeight := GetFastValue cfg "height" (height en) in
  let make g := let '(r, s') := new_body g s in (Some r, s') in
  match switch_case shapeType with
  | Some KRectangle =>
      make (Rectangle bodyX bodyY bodyWidth bodyHeight options)
  | Some KCircle =>
      let radius := GetFastValue cfg "radius" (half_max bodyWidth bodyHeight) in
      let maxSides := GetFastValue cfg "maxSides" (num 25) in
      make (Circle bodyX bodyY radius options maxSides)
  | Some KTrapezoid =>
      let slope := GetFastValue cfg "slope" (VNum (Fin (1 # 2))) in
      make (Trapezoid bodyX bodyY bodyWidth bodyHeight slope options)
  | Some KPolygon =>
      let sides := GetFastValue cfg "sides" (num 5) in
      let pRadius := GetFastValue cfg "radius" (half_max bodyWidth bodyHeight) in
      make (Polygon bodyX bodyY sides pRadius options)
  | Some KFromVertices =>
      let verts := GetFastValue cfg "verts" VNull in
      if truthy verts then
        let verts :=
          match verts with VStr p => VPoints (fromPath p) | v => v end in
        match body en with
        | Some cur =>
            if negb (has_temp (obj_at s cur)) then
              (Some cur, Body_setVertices cur verts s)
            else
              let flagInternal := GetFastValue cfg "flagInternal" (VBool false) in
              let removeCollinear := GetFastValue cfg "removeCollinear" (VNum (Fin (1 # 100))) in
              let minimumArea := GetFastValue cfg "minimumArea" (num 10) in
              make (FromVertices bodyX bodyY verts options flagInternal removeCollinear minimumArea)
        | None =>
            let flagInternal := GetFastValue cfg "flagInternal" (VBool false) in
            let removeCollinear := GetFastValue cfg "removeCollinear" (VNum (Fin (1 # 100))) in
            let minimumArea := GetFastValue cfg "minimumArea" (num 10) in
            make (FromVertices bodyX bodyY verts options flagInternal removeCollinear minimumArea)
        end
      else (None, s)
  | Some KFromPhysicsEditor =>
      make (FromPhysicsEditor bodyX bodyY bodyWidth bodyHeight (config_fields cfg))
  | None => (None, s)
  end.

(** ** setBody *)

Definition setBody (this : eref) (cfg : config) (options : value)
    (s : state) : eref * state :=
  if negb (config_truthy cfg) then (this, s)
  else
    let cfg := match cfg with CStr t => CObj {[ "type" := VStr t ]} | c => c end in
    match build_body this cfg options s with
    | (Some b, s') => (this, (setExistingBody this b (get_prop cfg "addToWorld") s').2)
    | (None, s') => (this, s')
    end.

(** ** The shape builders *)

Definition setRectangle (this : eref) (w h options : value) (s : state) : eref * state :=
  setBody this
    (CObj {[ "type" := VStr "rectangle"; "width" := w; "height" := h ]}) options s.

Definition setCircle (this : eref) (radius options : value) (s : state) : eref * state :=
  setBody this
    (CObj {[ "type" := VStr "circle"; "radius" := radius ]}) options s.

Definition setPolygon (this : eref) (radius sides options : value) (s : state) : eref * state :=
  setBody this
    (CObj {[ "type" := VStr "polygon"; "sides" := sides; "radius" := radius ]}) options s.

Definition setTrapezoid (this : eref) (w h slope options : value) (s : state) : eref * state :=
  setBody this
    (CObj {[ "type" := VStr "trapezoid"; "width" := w; "height" := h; "slope" := slope ]})
    options s.

End Dispatcher.

(** ** Sequences of attachments, and the vocabulary of the statements *)

(** A sequence of [setExistingBody] calls on one game object. *)
Definition attach_all (this : eref) (ops : list (ref * value)) (s : state) : state :=
  foldl (λ acc op, (setExistingBody this op.1 op.2 acc).2) s ops.

(** The body in the slot of a game object, as a set. *)
Definition slot_set (s : state) (e : eref) : gset ref :=
  match body (ent_at s e) with
  | Some b => {[b]}
  | None => ∅
  end.

(** The bodies a game object held at the start of, or was given during, a
    sequence of attachments. *)
Definition held (s : state) (e : eref) (ops : list (ref * value)) : gset ref :=
  slot_set s e ∪ list_to_set ops.*1.

(** The factory that was called for a geometry. *)
Definition kind_of (g : geometry) : shape_case :=
  match g with
  | Rectangle _ _ _ _ _ => KRectangle
  | Circle _ _ _ _ _ => KCircle
  | Trapezoid _ _ _ _ _ _ => KTrapezoid
  | Polygon _ _ _ _ _ => KPolygon
  | FromVertices _ _ _ _ _ _ _ => KFromVertices
  | FromPhysicsEditor _ _ _ _ _ => KFromPhysicsEditor
  end.

(** Whether [setExistingBody] adds the body to the world, by its
    [addToWorld] argument ([undefined] standing for [true]). *)
Definition adds (addToWorld : value) : bool :=
  truthy (match addToWorld with VUndefined => VBool true | v => v end).

(** A configuration object carries an explicit field. *)
Definition has_field (f : gmap string value) (key : string) : bool :=
  match f !! key with
  | Some VUndefined | None => false
  | Some _ => true
  end.

(** The vertex source of a FromVertices configuration, resolved: a raw
    point sequence, or a non-empty path string sent through the parser. *)
Definition vertex_source `{!Collaborators} (f : gmap string value) : option value :=
  match f !! "verts" with
  | Some (VPoints pts) => Some (VPoints pts)
  | Some (VStr p) => if str_truthy p then Some (VPoints (fromPath p)) else None
  | _ => None
  end.

(** Sample data: a game object of 40 by 20 without origin component, two
    single-part bodies, an empty world; and collaborators that parse every
    path to the single point at the origin. *)
Definition plain : Collaborators :=
  {| fromPath := λ _, [(Fin (inject_Z 0), Fin (inject_Z 0))];
     StringToNumber := λ _, NaN;
     centerOf := λ _, (Fin (inject_Z 0), Fin (inject_Z 0));
     transient := λ _, false |}.

Definition sprite : entity :=
  Entity None (num 40) (num 20) (num 0, num 0) false
         (Fin (inject_Z 0)) (Fin (inject_Z 0)).

Definition single (r : ref) : obj := Obj [r] BUnset None false None None (NaN, NaN).

Definition tile : entity :=
  Entity None (num 10) (num 10) (num 7, num 9) false
         (Fin (inject_Z 0)) (Fin (inject_Z 0)).

Definition scene : state :=
  State {[ 0 := sprite; 1 := tile ]} {[ 1 := single 1; 2 := single 2 ]} ∅.

(** [scene] after body 1, and then body 2, were attached to the sprite. *)
Definition scene1 : state := (setExistingBody 0 1 VUndefined scene).2.
Definition scene2 : state := (setExistingBody 0 2 VUndefined scene1).2.

Definition path_cfg : gmap string value :=
  {[ "type" := VStr "fromVerts"; "verts" := VStr "0 0 30 0 30 30" ]}.

(** The statement that a stale detachment hook spares the newer body: on
    game object [e], with [b1] attached and then [b2], calling the hook
    left on [b1] changes neither the world membership of [b2] nor its
    [gameObject]. *)
Definition hook_spares_newer (s : state) (e : eref) (b1 b2 : ref) : Prop :=
  let s2 := (setExistingBody e b2 VUndefined (setExistingBody e b1 VUndefined s).2).2 in
  ∀ s3, call_destroy b1 s2 = Some s3 →
    in_world b2 s3 = in_world b2 s2
    ∧ gameObject (obj_at s3 b2) = gameObject (obj_at s2 b2).


(** An argument of a builder, or the default that [GetFastValue] takes
    when the argument is [undefined]. *)
Definition or_default (v d : value) : value :=
  match v with
  | VUndefined => d
  | _ => v
  end.

(** The calls a program makes on this component.  A call of a hook that
    raises leaves the state as it was. *)
Inductive op :=
| OAttach (e : eref) (b : ref) (addToWorld : value)
| OSetBody (e : eref) (cfg : config) (options : value)
| ODestroy (b : ref).

Definition step `{!Collaborators} (o : op) (s : state) : state :=
  match o with
  | OAttach e b a => (setExistingBody e b a s).2
  | OSetBody e cfg options => (setBody e cfg options s).2
  | ODestroy b => default s (call_destroy b s)
  end.

Definition run `{!Collaborators} (ops : list op) (s : state) : state :=
  foldl (λ acc o, step o acc) s ops.

(** Every body in the simulation world is in the slot of a game object. *)
Definition tracked (s : state) : Prop :=
  ∀ b, b ∈ world s → ∃ e, body (ent_at s e) = Some b.

(** More sample data: a scene whose sprite holds a body marked [temp]
    that is in the world, and further configurations. *)
Definition placeholder : obj := Obj [1] BUnset None true None None (NaN, NaN).

Definition scene_temp : state :=
  State {[ 0 := set_body (Some 1) sprite ]} {[ 1 := placeholder ]} {[ 1 ]}.

Definition kite_cfg : gmap string value := {[ "type" := VStr "kite" ]}.
Definition no_verts_cfg : gmap string value :=
  {[ "type" := VStr "fromVertices"; "verts" := VStr "" ]}.
Definition hidden_path_cfg : gmap string value :=
  {[ "type" := VStr "fromVerts"; "verts" := VStr "0 0 30 0 30 30";
     "addToWorld" := VBool false ]}.
Definition trapezoid_cfg : gmap string value :=
  {[ "type" := VStr "trapezoid"; "width" := num 8 ]}.
Definition editor_cfg : gmap string value :=
  {[ "type" := VStr "fromPhysicsEditor"; "x" := num 5 ]}.
Definition disc_cfg : gmap string value :=
  {[ "type" := VStr "circle"; "x" := num 1; "y" := num 2; "radius" := num (-3) ]}.

(** * Properties *)

#[local] Set Warnings "-clear-no-such-hyp".

(** ** The store *)

Lemma obj_at_upd_obj r f s r' :
  obj_at (upd_obj r f s) r' = if decide (r = r') then f (obj_at s r) else obj_at s r'.
Proof.
  unfold obj_at, upd_obj; simpl. rewrite lookup_insert.
  case_decide; done.
Qed.

Lemma ent_at_upd_ent e f s e' :
  ent_at (upd_ent e f s) e' = if decide (e = e') then f (ent_at s e) else ent_at s e'.
Proof.
  unfold ent_at, upd_ent; simpl. rewrite lookup_insert.
  case_decide; done.
Qed.

Lemma link_parts_entities e ps s : entities (link_parts e ps s) = entities s.
Proof. revert s; induction ps as [|p ps IH]; intros s; [done|]. simpl. by rewrite IH. Qed.

Lemma link_parts_world e ps s : world (link_parts e ps s) = world s.
Proof. revert s; induction ps as [|p ps IH]; intros s; [done|]. simpl. by rewrite IH. Qed.

Lemma link_parts_ent_at e ps s e' : ent_at (link_parts e ps s) e' = ent_at s e'.
Proof. unfold ent_at. by rewrite link_parts_entities. Qed.

Lemma link_parts_obj_at e ps s r :
  obj_at (link_parts e ps s) r =
  if decide (r ∈ ps) then set_gameObject (BEntity e) (obj_at s r) else obj_at s r.
Proof.
  revert s; induction ps as [|p ps IH]; intros s.
  - destruct (decide (r ∈ [])) as [Hin|]; [by apply elem_of_nil in Hin|done].
  - change (link_parts e (p :: ps) s)
      with (link_parts e ps (upd_obj p (set_gameObject (BEntity e)) s)).
    rewrite IH, obj_at_upd_obj.
    destruct (decide (p = r)) as [->|Hne].
    + rewrite (decide_True (P := r ∈ r :: ps)) by (apply elem_of_cons; by left).
      by destruct (decide (r ∈ ps)).
    + destruct (decide (r ∈ ps)) as [Hin|Hnin].
      * rewrite decide_True; [done|]. by apply elem_of_cons; right.
      * rewrite decide_False; [done|]. by intros [?|?]%elem_of_cons.
Qed.

(** ** setExistingBody, field by field *)

Lemma seb_fst e b a s : (setExistingBody e b a s).1 = e.
Proof. done. Qed.

Lemma seb_world e b a s :
  world (setExistingBody e b a s).2 =
  if adds a then {[b]} ∪ (world s ∖ slot_set s e) else world s ∖ slot_set s e.
Proof.
  unfold setExistingBody, adds, slot_set.
  destruct (body (ent_at s e)) as [old|];
    destruct (truthy _); cbn [snd];
    match goal with |- context [originComponent ?x] => destruct (originComponent x) end;
    cbn [world setOrigin upd_ent upd_obj world_add];
    rewrite ?link_parts_world; cbn [world upd_ent world_remove];
    rewrite ?difference_empty_L; done.
Qed.

Lemma seb_body e b a s e' :
  body (ent_at (setExistingBody e b a s).2 e') =
  if decide (e = e') then Some b else body (ent_at s e').
Proof.
  unfold setExistingBody. cbn [snd].
  set (s1 := match body (ent_at s e) with Some old => world_remove old s | None => s end).
  assert (Hs1 : ∀ x, ent_at s1 x = ent_at s x) by (intros x; subst s1; by destruct (body _)).
  set (s2 := upd_ent e (set_body (Some b)) s1).
  set (s3 := link_parts e (parts (obj_at s2 b)) s2).
  set (s4 := upd_obj b (set_destroy (Some e)) s3).
  set (s5 := if truthy _ then world_add b s4 else s4).
  assert (Hs5 : ∀ x, ent_at s5 x = ent_at s2 x).
  { intros x. subst s5 s4 s3. destruct (truthy _); unfold ent_at; cbn [entities world_add upd_obj];
      by rewrite link_parts_entities. }
  assert (Hs2 : body (ent_at s2 e') = if decide (e = e') then Some b else body (ent_at s e')).
  { subst s2. rewrite ent_at_upd_ent. case_decide; [done|by rewrite Hs1]. }
  destruct (originComponent (ent_at s5 e)).
  - unfold setOrigin. rewrite ent_at_upd_ent, !Hs5.
    destruct (decide (e = e')) as [->|]; [|done].
    cbn [set_origin body]. rewrite Hs2. by rewrite ?decide_True.
  - by rewrite Hs5.
Qed.

Lemma seb_obj e b a s r :
  obj_at (setExistingBody e b a s).2 r =
  (if decide (b = r) then set_destroy (Some e) else id)
    ((if decide (r ∈ parts (obj_at s b)) then set_gameObject (BEntity e) else id)
       (obj_at s r)).
Proof.
  unfold setExistingBody. cbn [snd].
  set (s1 := match body (ent_at s e) with Some old => world_remove old s | None => s end).
  assert (Hs1 : ∀ x, obj_at s1 x = obj_at s x) by (intros x; subst s1; by destruct (body _)).
  set (s2 := upd_ent e (set_body (Some b)) s1).
  assert (Hs2 : ∀ x, obj_at s2 x = obj_at s x) by (intros x; by rewrite <- Hs1).
  set (s3 := link_parts e (parts (obj_at s2 b)) s2).
  set (s4 := upd_obj b (set_destroy (Some e)) s3).
  set (s5 := if truthy _ then world_add b s4 else s4).
  assert (Hs5 : obj_at s5 r = obj_at s4 r) by (subst s5; by destruct (truthy _)).
  assert (Hs6 : obj_at (if originComponent (ent_at s5 e)
                        then setOrigin e
                               (js_add (originX (ent_at s5 e)) (centerOffsetOf s5 e).1)
                               (js_add (originY (ent_at s5 e)) (centerOffsetOf s5 e).2) s5
                        else s5) r = obj_at s5 r) by (by destruct (originComponent _)).
  rewrite Hs6, Hs5. subst s4 s3.
  rewrite obj_at_upd_obj, !link_parts_obj_at, !Hs2.
  destruct (decide (b = r)) as [->|]; destruct (decide (_ ∈ _)); done.
Qed.

Lemma seb_parts e b a s r :
  parts (obj_at (setExistingBody e b a s).2 r) = parts (obj_at s r).
Proof. rewrite seb_obj. by destruct (decide (b = r)), (decide (r ∈ _)). Qed.

Lemma seb_gameObject e b a s r :
  gameObject (obj_at (setExistingBody e b a s).2 r) =
  if decide (r ∈ parts (obj_at s b)) then BEntity e else gameObject (obj_at s r).
Proof. rewrite seb_obj. by destruct (decide (b = r)), (decide (r ∈ _)). Qed.

Lemma seb_destroy e b a s r :
  destroy (obj_at (setExistingBody e b a s).2 r) =
  if decide (b = r) then Some e else destroy (obj_at s r).
Proof. rewrite seb_obj. by destruct (decide (b = r)), (decide (r ∈ _)). Qed.

Lemma seb_slot_set e b a s : slot_set (setExistingBody e b a s).2 e = {[b]}.
Proof. unfold slot_set. rewrite seb_body. by rewrite decide_True. Qed.

(** ** Sequences of attachments *)

Lemma attach_all_cons e op ops s :
  attach_all e (op :: ops) s = attach_all e ops (setExistingBody e op.1 op.2 s).2.
Proof. done. Qed.

Lemma attach_all_world_bound e ops s :
  world (attach_all e ops s) ⊆ world s ∪ list_to_set ops.*1.
Proof.
  revert s; induction ops as [|op ops IH]; intros s.
  - set_solver.
  - rewrite attach_all_cons. etrans; [apply IH|].
    rewrite seb_world. destruct (adds _); set_solver.
Qed.

Lemma attach_all_live e ops s :
  world (attach_all e ops s) ∩ held s e ops ⊆ slot_set (attach_all e ops s) e.
Proof.
  revert s; induction ops as [|op ops IH]; intros s.
  - unfold held. set_solver.
  - rewrite attach_all_cons.
    set (s1 := (setExistingBody e op.1 op.2 s).2).
    pose proof (IH s1) as Hlive.
    pose proof (attach_all_world_bound e ops s1) as Hbound.
    unfold held in *. subst s1.
    rewrite seb_slot_set in Hlive. rewrite seb_world in Hbound.
    destruct (adds _); set_solver.
Qed.

(** ** The detachment hook *)

Lemma destroy_hook_current e cur s :
  body (ent_at s e) = Some cur →
  destroy_hook e s = Some (upd_obj cur (set_gameObject BNull) (world_remove cur s)).
Proof. unfold destroy_hook. by intros ->. Qed.

Lemma call_destroy_installed b e cur s :
  destroy (obj_at s b) = Some e →
  body (ent_at s e) = Some cur →
  call_destroy b s = Some (upd_obj cur (set_gameObject BNull) (world_remove cur s)).
Proof. unfold call_destroy. intros ->. apply destroy_hook_current. Qed.

Lemma in_world_false b s : in_world b s = false ↔ b ∉ world s.
Proof. unfold in_world. apply bool_decide_eq_false. Qed.

(** C1, as amended.  On a game object [e] to which [b1] and then [b2] were
    attached, [b2] is in the slot (and in the world when it was added);
    the hook installed on [b1] runs and acts on the body in the slot of
    [e], which is [b2]: it takes [b2] out of the simulation world and sets
    the [gameObject] of [b2] to null; no other body leaves the world and
    no slot changes. *)
Theorem stale_hook_acts_on_current_body s e b1 b2 a1 a2 :
  let s2 := (setExistingBody e b2 a2 (setExistingBody e b1 a1 s).2).2 in
  body (ent_at s2 e) = Some b2
  ∧ (adds a2 = true → in_world b2 s2 = true)
  ∧ ∃ s3, call_destroy b1 s2 = Some s3
      ∧ in_world b2 s3 = false
      ∧ gameObject (obj_at s3 b2) = BNull
      ∧ world s3 = world s2 ∖ {[b2]}
      ∧ entities s3 = entities s2.
Proof.
  intros s2.
  assert (Hin : adds a2 = true → in_world b2 s2 = true).
  { intros Hadds. unfold in_world. apply bool_decide_eq_true.
    subst s2. rewrite seb_world, Hadds. set_solver. }
  assert (Hd : destroy (obj_at s2 b1) = Some e).
  { subst s2. rewrite !seb_destroy, (decide_True (P := b1 = b1)) by done.
    by destruct (decide (b2 = b1)). }
  assert (Hb : body (ent_at s2 e) = Some b2).
  { subst s2. rewrite seb_body. by rewrite decide_True. }
  split; [exact Hb|]. split; [exact Hin|].
  eexists. split; [exact (call_destroy_installed _ _ _ _ Hd Hb)|].
  split; [|split; [|done]].
  - apply in_world_false. cbn [world upd_obj world_remove]. set_solver.
  - rewrite obj_at_upd_obj. by rewrite decide_True.
Qed.

(** C1, the claim as stated, fails on the sample scene: with body 1 and
    then body 2 attached to the sprite, the hook of body 1 runs, removes
    body 2 from the world and clears the [gameObject] of body 2. *)
Lemma stale_hook_hits_newer_body :
  in_world 2 scene2 = true
  ∧ gameObject (obj_at scene2 2) = BEntity 0
  ∧ (∃ s3, call_destroy 1 scene2 = Some s3
       ∧ in_world 2 s3 = false ∧ gameObject (obj_at s3 2) = BNull)
  ∧ ¬ hook_spares_newer scene 0 1 2.
Proof.
  assert (Hcall : call_destroy 1 scene2
                  = Some (upd_obj 2 (set_gameObject BNull) (world_remove 2 scene2))).
  { apply (call_destroy_installed 1 0 2); by vm_compute. }
  split; [by vm_compute|]. split; [by vm_compute|]. split.
  - eexists. split; [exact Hcall|]. split; by vm_compute.
  - intros Hspare. destruct (Hspare _ Hcall) as [Hw _].
    vm_compute in Hw. discriminate.
Qed.

(** C2.  When a game object [e] that holds a body [old] is given a new
    body, the new body takes the slot and [old] is out of the simulation
    world after the call.  Through every sequence of attachments to [e],
    of all the bodies [e] held or was given, only the one in its slot can
    be in the world: [e] never has two live bodies. *)
Theorem attach_replaces_old_body s e old new a ops :
  body (ent_at s e) = Some old →
  old ≠ new →
  let s' := (setExistingBody e new a s).2 in
  body (ent_at s' e) = Some new
  ∧ in_world old s' = false
  ∧ world (attach_all e ops s) ∩ held s e ops ⊆ slot_set (attach_all e ops s) e
  ∧ (size (slot_set (attach_all e ops s) e) ≤ 1)%nat.
Proof.
  intros Hold Hne s'. split; [|split; [|split]].
  - subst s'. rewrite seb_body. by rewrite decide_True.
  - apply in_world_false. subst s'. rewrite seb_world.
    unfold slot_set. rewrite Hold. destruct (adds a); set_solver.
  - apply attach_all_live.
  - unfold slot_set. destruct (body (ent_at (attach_all e ops s) e)).
    + by rewrite size_singleton.
    + rewrite size_empty. lia.
Qed.

(** C5.  Attaching with [addToWorld = false] takes the body previously in
    the slot out of the world and adds nothing to the world; the new body
    is in the slot and every one of its parts refers back to the game
    object. *)
Theorem attach_without_adding s e b :
  let s' := (setExistingBody e b (VBool false) s).2 in
  world s' = world s ∖ slot_set s e
  ∧ body (ent_at s' e) = Some b
  ∧ Forall (λ p, gameObject (obj_at s' p) = BEntity e) (parts (obj_at s' b)).
Proof.
  intros s'. subst s'. split; [|split].
  - by rewrite seb_world.
  - rewrite seb_body. by rewrite decide_True.
  - rewrite seb_parts. apply Forall_forall. intros p Hp.
    rewrite seb_gameObject. by rewrite decide_True.
Qed.

(** ** The dispatcher *)

Section DispatcherFacts.
Context `{!Collaborators}.

Lemma GetFastValue_lacking f key d :
  has_field f key = false → GetFastValue (CObj f) key d = d.
Proof.
  unfold has_field, GetFastValue.
  destruct (f !! key) as [[]|]; done.
Qed.

Lemma GetFastValue_type f t :
  f !! "type" = Some (VStr t) → GetFastValue (CObj f) "type" (VStr "rectangle") = VStr t.
Proof. unfold GetFastValue. by intros ->. Qed.

Lemma new_body_fresh g s : (new_body g s).1 ∉ dom (heap s).
Proof. apply is_fresh. Qed.

Lemma new_body_obj g s :
  obj_at (new_body g s).2 (new_body g s).1
  = Obj [(new_body g s).1] BUnset None (transient g) (Some g) None (centerOf g).
Proof. unfold obj_at, new_body. cbn [fst snd heap]. by rewrite lookup_insert_eq. Qed.

Lemma new_body_ent_at g s e : ent_at (new_body g s).2 e = ent_at s e.
Proof. done. Qed.

Lemma new_body_world g s : world (new_body g s).2 = world s.
Proof. done. Qed.

(** What [setBody] leaves behind when the [switch] built a body with the
    factory call [g]: the new body is in the slot, keeps the record of its
    call, and is in the world according to [config.addToWorld]. *)
Lemma setBody_attaches_new e f options s g :
  build_body e (CObj f) options s = (Some (new_body g s).1, (new_body g s).2) →
  let r := fresh (dom (heap s)) in
  let s' := (setBody e (CObj f) options s).2 in
  (r ∉ dom (heap s))
  ∧ body (ent_at s' e) = Some r
  ∧ geom (obj_at s' r) = Some g
  ∧ world s' = if adds (default VUndefined (f !! "addToWorld"))
               then {[r]} ∪ (world s ∖ slot_set s e) else world s ∖ slot_set s e.
Proof.
  intros Hbuild r s'.
  assert (Hs' : s' = (setExistingBody e r (default VUndefined (f !! "addToWorld"))
                        (new_body g s).2).2).
  { subst s'. unfold setBody. cbn [config_truthy negb]. by rewrite Hbuild. }
  rewrite Hs'. split; [apply is_fresh|]. split; [|split].
  - rewrite seb_body. by rewrite decide_True.
  - rewrite seb_obj.
    change r with (new_body g s).1. rewrite new_body_obj.
    by destruct (decide _), (decide _).
  - by rewrite seb_world.
Qed.

(** C6.  A null or absent configuration makes [setBody] return the game
    object and leave the whole state as it was: the body in every slot and
    the membership of the world are unchanged.  So do the other falsy
    values. *)
Theorem setBody_without_config e options s :
  setBody e CNull options s = (e, s)
  ∧ setBody e CUndefined options s = (e, s)
  ∧ setBody e (CStr "") options s = (e, s)
  ∧ setBody e (CBool false) options s = (e, s)
  ∧ body (ent_at (setBody e CNull options s).2 e) = body (ent_at s e)
  ∧ world (setBody e CNull options s).2 = world s
  ∧ body (ent_at (setBody e CUndefined options s).2 e) = body (ent_at s e)
  ∧ world (setBody e CUndefined options s).2 = world s.
Proof. repeat split. Qed.




(** A configuration of one of the four common shapes always builds a body
    with the factory of that shape. *)
Lemma common_shape_built e f options s t k :
  f !! "type" = Some (VStr t) →
  switch_case (VStr t) = Some k →
  k ∈ [KRectangle; KCircle; KTrapezoid; KPolygon] →
  ∃ g, kind_of g = k
    ∧ build_body e (CObj f) options s = (Some (new_body g s).1, (new_body g s).2).
Proof.
  intros Htype Hk Hin. unfold build_body.
  rewrite (GetFastValue_type f t Htype), Hk.
  repeat (apply elem_of_cons in Hin as [->|Hin]); [..|by apply elem_of_nil in Hin];
    eexists; (split; [|reflexivity]); done.
Qed.

Lemma builder_adds e f options s t k :
  f !! "type" = Some (VStr t) →
  switch_case (VStr t) = Some k →
  k ∈ [KRectangle; KCircle; KTrapezoid; KPolygon] →
  f !! "addToWorld" = None →
  let r := fresh (dom (heap s)) in
  let s' := (setBody e (CObj f) options s).2 in
  body (ent_at s' e) = Some r
  ∧ in_world r s' = true
  ∧ kind_of <$> geom (obj_at s' r) = Some k.
Proof.
  intros Htype Hk Hin Hadd r s'.
  destruct (common_shape_built e f options s t k Htype Hk Hin) as (g & Hg & Hbuild).
  destruct (setBody_attaches_new e f options s g Hbuild) as (_ & Hslot & Hgeom & Hworld).
  fold r s' in Hslot, Hgeom, Hworld. split; [done|]. split.
  - unfold in_world. apply bool_decide_eq_true. rewrite Hworld, Hadd. set_solver.
  - rewrite Hgeom. cbn. by rewrite Hg.
Qed.

(** C10.  Each of the four shape builders builds a body of its shape, puts
    it in the slot and adds it to the simulation world, whatever the
    arguments and whatever the [options]: the configuration record a
    builder makes has no [addToWorld] field, and [options] is only handed
    to the factory. *)
Theorem builders_always_add e s options w h radius sides slope :
  let r := fresh (dom (heap s)) in
  let added (k : shape_case) (s' : state) :=
    body (ent_at s' e) = Some r
    ∧ in_world r s' = true
    ∧ kind_of <$> geom (obj_at s' r) = Some k in
  added KRectangle (setRectangle e w h options s).2
  ∧ added KCircle (setCircle e radius options s).2
  ∧ added KPolygon (setPolygon e radius sides options s).2
  ∧ added KTrapezoid (setTrapezoid e w h slope options s).2.
Proof.
  intros r added. subst added. cbv beta.
  split; [|split; [|split]].
  - eapply (builder_adds e _ options s "rectangle"); [done|done|set_solver|done].
  - eapply (builder_adds e _ options s "circle"); [done|done|set_solver|done].
  - eapply (builder_adds e _ options s "polygon"); [done|done|set_solver|done].
  - eapply (builder_adds e _ options s "trapezoid"); [done|done|set_solver|done].
Qed.

Lemma seb_vertices e b a s r :
  vertices (obj_at (setExistingBody e b a s).2 r) = vertices (obj_at s r).
Proof. rewrite seb_obj. by destruct (decide (b = r)), (decide (r ∈ _)). Qed.

Lemma seb_geom e b a s r :
  geom (obj_at (setExistingBody e b a s).2 r) = geom (obj_at s r).
Proof. rewrite seb_obj. by destruct (decide (b = r)), (decide (r ∈ _)). Qed.

Lemma vertex_source_resolved f verts :
  vertex_source f = Some verts →
  let v := GetFastValue (CObj f) "verts" VNull in
  truthy v = true
  ∧ match v with VStr p => VPoints (fromPath p) | v => v end = verts.
Proof.
  unfold vertex_source, GetFastValue.
  destruct (f !! "verts") as [[| | | |p|pts|]|]; try discriminate.
  - destruct (str_truthy p) eqn:Hp; [|discriminate]. by intros [= <-].
  - by intros [= <-].
Qed.

(** C3.  A FromVertices configuration with a vertex source, a raw point
    sequence or a path string resolved by the path parser: on a game object
    whose body is not marked [temp], [Body.setVertices] installs the
    resolved vertices on that body, no body is built, and the same body
    stays in the slot; on a game object without body, the [fromVertices]
    factory builds a new body from the resolved vertices and the resolved
    cleanup flags, and that body is in the slot. *)
Theorem fromVertices_dispatch e f options s t verts :
  f !! "type" = Some (VStr t) →
  t = "fromVertices" ∨ t = "fromVerts" →
  vertex_source f = Some verts →
  let en := ent_at s e in
  let bodyX := GetFastValue (CObj f) "x" (tempVec2 en).1 in
  let bodyY := GetFastValue (CObj f) "y" (tempVec2 en).2 in
  let flagInternal := GetFastValue (CObj f) "flagInternal" (VBool false) in
  let removeCollinear := GetFastValue (CObj f) "removeCollinear" (VNum (Fin (1 # 100))) in
  let minimumArea := GetFastValue (CObj f) "minimumArea" (num 10) in
  let s' := (setBody e (CObj f) options s).2 in
  (∀ cur, body en = Some cur → has_temp (obj_at s cur) = false →
     body (ent_at s' e) = Some cur
     ∧ vertices (obj_at s' cur) = Some verts
     ∧ (∀ r, geom (obj_at s' r) = geom (obj_at s r)))
  ∧ (body en = None →
     ∃ r, (r ∉ dom (heap s))
       ∧ body (ent_at s' e) = Some r
       ∧ geom (obj_at s' r)
         = Some (FromVertices bodyX bodyY verts options
                   flagInternal removeCollinear minimumArea)
       ∧ vertices (obj_at s' r) = None).
Proof.
  intros Htype Ht Hsrc en bodyX bodyY flagInternal removeCollinear minimumArea s'.
  destruct (vertex_source_resolved f verts Hsrc) as [Htruthy Hverts].
  assert (Hk : switch_case (VStr t) = Some KFromVertices) by (by destruct Ht as [->| ->]).
  split.
  - intros cur Hbody Htemp.
    assert (Hs' : s' = (setExistingBody e cur (default VUndefined (f !! "addToWorld"))
                          (Body_setVertices cur verts s)).2).
    { subst s'. unfold setBody, build_body. cbn [config_truthy negb].
      rewrite (GetFastValue_type f t Htype), Hk, Htruthy, Hverts.
      fold en. rewrite Hbody, Htemp. done. }
    rewrite Hs'. split; [|split].
    + rewrite seb_body. by rewrite decide_True.
    + rewrite seb_vertices. unfold Body_setVertices.
      rewrite obj_at_upd_obj. by rewrite decide_True.
    + intros r. rewrite seb_geom. unfold Body_setVertices.
      rewrite obj_at_upd_obj. by destruct (decide (cur = r)) as [->|].
  - intros Hbody.
    set (g := FromVertices bodyX bodyY verts options flagInternal removeCollinear minimumArea).
    assert (Hbuild : build_body e (CObj f) options s
                     = (Some (new_body g s).1, (new_body g s).2)).
    { unfold build_body. rewrite (GetFastValue_type f t Htype), Hk, Htruthy, Hverts.
      fold en. rewrite Hbody. done. }
    destruct (setBody_attaches_new e f options s g Hbuild) as (Hfresh & Hslot & Hgeom & _).
    exists (fresh (dom (heap s))). repeat (split; [done|]).
    assert (Hs' : s' = (setExistingBody e (new_body g s).1
                          (default VUndefined (f !! "addToWorld")) (new_body g s).2).2).
    { subst s'. unfold setBody. cbn [config_truthy negb]. by rewrite Hbuild. }
    rewrite Hs', seb_vertices.
    change (fresh (dom (heap s))) with (new_body g s).1. by rewrite new_body_obj.
Qed.

(** ** Where a back-reference is cleared *)







End DispatcherFacts.


(** ** The statements at the sample scene *)

(** C2 at the sample scene: the sprite holds body 1 and is given body 2. *)
Lemma attach_replaces_old_body_at_scene :
  body (ent_at scene1 0) = Some 1
  ∧ in_world 1 scene1 = true
  ∧ body (ent_at scene2 0) = Some 2
  ∧ in_world 1 scene2 = false.
Proof.
  destruct (attach_replaces_old_body scene1 0 1 2 VUndefined []
              ltac:(vm_compute; reflexivity) ltac:(discriminate))
    as (Hslot & Hout & _).
  split; [vm_compute; reflexivity|]. split; [vm_compute; reflexivity|].
  split; [exact Hslot|exact Hout].
Defined.

(** C3 at the sample scene: a path configuration on the sprite holding
    body 1, and on the sprite without body. *)
Lemma fromVertices_dispatch_at_scene :
  let origin := VPoints [(Fin (inject_Z 0), Fin (inject_Z 0))] in
  (body (ent_at (@setBody plain 0 (CObj path_cfg) VNull scene1).2 0) = Some 1
   ∧ vertices (obj_at (@setBody plain 0 (CObj path_cfg) VNull scene1).2 1) = Some origin)
  ∧ (∃ r, (r ∉ dom (heap scene))
       ∧ body (ent_at (@setBody plain 0 (CObj path_cfg) VNull scene).2 0) = Some r
       ∧ geom (obj_at (@setBody plain 0 (CObj path_cfg) VNull scene).2 r)
         = Some (FromVertices (num 0) (num 0) origin VNull
                   (VBool false) (VNum (Fin (1 # 100))) (num 10))).
Proof.
  intros origin. split.
  - destruct (@fromVertices_dispatch plain 0 path_cfg VNull scene1 "fromVerts" origin
                ltac:(vm_compute; reflexivity) ltac:(right; reflexivity)
                ltac:(vm_compute; reflexivity)) as [Hin_place _].
    destruct (Hin_place 1 ltac:(vm_compute; reflexivity) ltac:(vm_compute; reflexivity))
      as (Hslot & Hverts & _).
    split; [exact Hslot|exact Hverts].
  - destruct (@fromVertices_dispatch plain 0 path_cfg VNull scene "fromVerts" origin
                ltac:(vm_compute; reflexivity) ltac:(right; reflexivity)
                ltac:(vm_compute; reflexivity)) as [_ Hfresh].
    destruct (Hfresh ltac:(vm_compute; reflexivity)) as (r & Hnew & Hslot & Hgeom & _).
    exists r. split; [exact Hnew|]. split; [exact Hslot|exact Hgeom].
Defined.




(** * Further properties of the component *)

(** ** What an attachment leaves alone *)

Lemma seb_ent e b a s e' :
  ∃ x y,
    ent_at (setExistingBody e b a s).2 e' =
    if decide (e = e') then
      (if originComponent (ent_at s e) then set_origin x y else id)
        (set_body (Some b) (ent_at s e))
    else ent_at s e'.
Proof.
  unfold setExistingBody. cbn [snd].
  set (s1 := match body (ent_at s e) with Some old => world_remove old s | None => s end).
  assert (Hs1 : ∀ x, ent_at s1 x = ent_at s x) by (intros x; subst s1; by destruct (body _)).
  set (s2 := upd_ent e (set_body (Some b)) s1).
  set (s3 := link_parts e (parts (obj_at s2 b)) s2).
  set (s4 := upd_obj b (set_destroy (Some e)) s3).
  set (s5 := if truthy _ then world_add b s4 else s4).
  assert (Hs5 : ∀ x, ent_at s5 x = ent_at s2 x).
  { intros x. subst s5 s4 s3. destruct (truthy _); unfold ent_at;
      cbn [entities world_add upd_obj]; by rewrite link_parts_entities. }
  assert (Hs2 : ent_at s2 e' = if decide (e = e') then set_body (Some b) (ent_at s e)
                               else ent_at s e').
  { subst s2. rewrite ent_at_upd_ent, !Hs1. done. }
  assert (Hoc : originComponent (ent_at s5 e) = originComponent (ent_at s e)).
  { rewrite Hs5. subst s2. rewrite ent_at_upd_ent.
    destruct (decide (e = e)); [by rewrite Hs1|done]. }
  rewrite Hoc. destruct (originComponent (ent_at s e)).
  - eexists _, _. unfold setOrigin. rewrite ent_at_upd_ent.
    destruct (decide (e = e')) as [<-|].
    + rewrite Hs5, Hs2. reflexivity.
    + by rewrite Hs5, Hs2.
  - exists NaN, NaN. rewrite Hs5, Hs2. by destruct (decide (e = e')).
Qed.

(** An attachment to [e] changes no other game object, no body outside the
    parts of the new body (the new body itself apart), and the membership
    of no body but the old and the new one. *)
Theorem attach_frame e b a s e' r :
  e' ≠ e →
  r ≠ b →
  r ∉ parts (obj_at s b) →
  let s' := (setExistingBody e b a s).2 in
  ent_at s' e' = ent_at s e'
  ∧ obj_at s' r = obj_at s r
  ∧ (r ∉ slot_set s e → in_world r s' = in_world r s).
Proof.
  intros He Hr Hparts s'. split; [|split].
  - destruct (seb_ent e b a s e') as (x & y & Hent). subst s'.
    rewrite Hent. by rewrite decide_False.
  - subst s'. rewrite seb_obj. by rewrite !decide_False.
  - intros Hold. subst s'. unfold in_world. rewrite seb_world.
    apply bool_decide_ext. destruct (adds a); set_solver.
Qed.

(** On the game object itself an attachment changes the slot and, with an
    origin component, the origin: size, position vector and the origin
    component are kept, and without origin component so is the origin. *)
Theorem attach_keeps_entity_fields e b a s :
  let en := ent_at s e in
  let en' := ent_at (setExistingBody e b a s).2 e in
  width en' = width en
  ∧ height en' = height en
  ∧ tempVec2 en' = tempVec2 en
  ∧ originComponent en' = originComponent en
  ∧ (originComponent en = false → en' = set_body (Some b) en).
Proof.
  intros en en'. destruct (seb_ent e b a s e) as (x & y & Hent).
  rewrite decide_True in Hent by done. subst en en'. rewrite Hent.
  destruct (originComponent (ent_at s e)) eqn:Hoc; cbn; rewrite ?Hoc; by repeat split.
Qed.

Lemma seb_held e b a s :
  body (ent_at s e) = Some b →
  in_world b (setExistingBody e b a s).2 = adds a
  ∧ world (setExistingBody e b a s).2 ∖ {[b]} = world s ∖ {[b]}.
Proof.
  intros Hheld. split.
  - unfold in_world. rewrite seb_world. unfold slot_set. rewrite Hheld.
    destruct (adds a).
    + apply bool_decide_eq_true. set_solver.
    + apply bool_decide_eq_false. set_solver.
  - rewrite seb_world. unfold slot_set. rewrite Hheld. destruct (adds a); set_solver.
Qed.

(** Attaching the body a game object already holds sets its membership of
    the world to [addToWorld]: it is in the world afterwards exactly when
    the flag is truthy or absent, whether or not it was before. *)
Theorem attach_held_body e b a s :
  body (ent_at s e) = Some b →
  let s' := (setExistingBody e b a s).2 in
  body (ent_at s' e) = Some b
  ∧ in_world b s' = adds a
  ∧ world s' ∖ {[b]} = world s ∖ {[b]}.
Proof.
  intros Hheld s'. subst s'. split; [|exact (seb_held e b a s Hheld)].
  rewrite seb_body. by rewrite decide_True.
Qed.

(** ** The hook of the active body *)


(** A body moved to a second game object stays in the slot of the first;
    when the first is then given another body, the shared body leaves the
    world although the second game object still holds it. *)
Theorem shared_body_leaves_world e1 e2 b b' a1 a2 a3 s :
  e1 ≠ e2 →
  b ≠ b' →
  let s2 := (setExistingBody e2 b a2 (setExistingBody e1 b a1 s).2).2 in
  let s3 := (setExistingBody e1 b' a3 s2).2 in
  body (ent_at s2 e1) = Some b
  ∧ body (ent_at s2 e2) = Some b
  ∧ destroy (obj_at s2 b) = Some e2
  ∧ body (ent_at s3 e2) = Some b
  ∧ in_world b s3 = false.
Proof.
  intros He Hb s2 s3.
  assert (H1 : body (ent_at s2 e1) = Some b).
  { subst s2. rewrite !seb_body. rewrite decide_False by done. by rewrite decide_True. }
  assert (H2 : body (ent_at s2 e2) = Some b).
  { subst s2. rewrite seb_body. by rewrite decide_True. }
  split; [done|]. split; [done|]. split; [|split].
  - subst s2. rewrite seb_destroy. by rewrite decide_True.
  - subst s3. rewrite seb_body. by rewrite decide_False.
  - apply in_world_false. subst s3. rewrite seb_world. unfold slot_set. rewrite H1.
    destruct (adds a3); set_solver.
Qed.

(** ** What the dispatcher builds, and when it builds nothing *)

Section DispatcherEdges.
Context `{!Collaborators}.

Lemma build_body_frame e cfg options s :
  world (build_body e cfg options s).2 = world s
  ∧ entities (build_body e cfg options s).2 = entities s.
Proof.
  unfold build_body.
  destruct (switch_case _) as [[]|]; try done.
  destruct (truthy _); [|done].
  destruct (body (ent_at s e)) as [cur|]; [|done].
  by destruct (has_temp _).
Qed.

Lemma build_body_none e cfg options s :
  (build_body e cfg options s).1 = None → (build_body e cfg options s).2 = s.
Proof.
  unfold build_body.
  destruct (switch_case _) as [[]|]; try done.
  destruct (truthy _); [|done].
  destruct (body (ent_at s e)) as [cur|]; [|done].
  by destruct (has_temp _).
Qed.

Lemma setBody_shape e cfg options s :
  (setBody e cfg options s).2 = s
  ∨ ∃ b a s1, (setBody e cfg options s).2 = (setExistingBody e b a s1).2
      ∧ world s1 = world s ∧ entities s1 = entities s.
Proof.
  unfold setBody. destruct (config_truthy cfg); [|by left]. cbn [negb].
  set (cfg' := match cfg with CStr t => CObj {[ "type" := VStr t ]} | c => c end).
  pose proof (build_body_frame e cfg' options s) as [Hw He].
  pose proof (build_body_none e cfg' options s) as Hnone.
  destruct (build_body e cfg' options s) as [[b|] s1]; cbn [fst snd] in *.
  - right. by exists b, (get_prop cfg' "addToWorld"), s1.
  - left. by apply Hnone.
Qed.

(** A configuration whose [type] is none of the labels of the [switch], a
    string or any other value but [undefined], makes [setBody] do nothing:
    no body is built and the state is as it was. *)
Theorem unknown_kind_is_noop e f v options s :
  f !! "type" = Some v →
  v ≠ VUndefined →
  switch_case v = None →
  setBody e (CObj f) options s = (e, s).
Proof.
  intros Hf Hv Hk. unfold setBody, build_body. cbn [config_truthy negb].
  replace (GetFastValue (CObj f) "type" (VStr "rectangle")) with v.
  - by rewrite Hk.
  - unfold GetFastValue. rewrite Hf. by destruct v.
Qed.

(** A FromVertices configuration whose [verts] is missing or falsy (null,
    the empty string, zero) builds nothing and changes nothing. *)
Theorem fromVertices_without_source e f t options s :
  f !! "type" = Some (VStr t) →
  t = "fromVertices" ∨ t = "fromVerts" →
  truthy (GetFastValue (CObj f) "verts" VNull) = false →
  setBody e (CObj f) options s = (e, s).
Proof.
  intros Htype Ht Hverts.
  assert (Hk : switch_case (VStr t) = Some KFromVertices) by (by destruct Ht as [->| ->]).
  unfold setBody, build_body. cbn [config_truthy negb].
  by rewrite (GetFastValue_type f t Htype), Hk, Hverts.
Qed.

(** A FromVertices configuration on a game object whose body carries the
    [temp] marker builds a new body with the factory, as on a game object
    without body; the marked body is replaced and leaves the world, and its
    vertices are not touched. *)
Theorem fromVertices_replaces_transient e f options s t verts cur :
  f !! "type" = Some (VStr t) →
  t = "fromVertices" ∨ t = "fromVerts" →
  vertex_source f = Some verts →
  body (ent_at s e) = Some cur →
  has_temp (obj_at s cur) = true →
  let en := ent_at s e in
  let g := FromVertices (GetFastValue (CObj f) "x" (tempVec2 en).1)
             (GetFastValue (CObj f) "y" (tempVec2 en).2) verts options
             (GetFastValue (CObj f) "flagInternal" (VBool false))
             (GetFastValue (CObj f) "removeCollinear" (VNum (Fin (1 # 100))))
             (GetFastValue (CObj f) "minimumArea" (num 10)) in
  let s' := (setBody e (CObj f) options s).2 in
  ∃ r, r ≠ cur
    ∧ body (ent_at s' e) = Some r
    ∧ geom (obj_at s' r) = Some g
    ∧ in_world cur s' = false
    ∧ vertices (obj_at s' cur) = vertices (obj_at s cur).
Proof.
  intros Htype Ht Hsrc Hbody Htemp en g s'.
  destruct (vertex_source_resolved f verts Hsrc) as [Htruthy Hverts].
  assert (Hk : switch_case (VStr t) = Some KFromVertices) by (by destruct Ht as [->| ->]).
  assert (Hbuild : build_body e (CObj f) options s
                   = (Some (new_body g s).1, (new_body g s).2)).
  { unfold build_body. rewrite (GetFastValue_type f t Htype), Hk, Htruthy, Hverts.
    rewrite Hbody, Htemp. done. }
  destruct (setBody_attaches_new e f options s g Hbuild) as (Hfresh & Hslot & Hgeom & Hworld).
  assert (Hne : fresh (dom (heap s)) ≠ cur).
  { intros Heq. apply Hfresh. rewrite Heq. apply elem_of_dom.
    unfold obj_at in Htemp. by destruct (heap s !! cur). }
  exists (fresh (dom (heap s))). repeat (split; [done|]). split.
  - apply in_world_false. fold s' in Hworld. rewrite Hworld.
    unfold slot_set. rewrite Hbody. destruct (adds _); set_solver.
  - assert (Hs' : s' = (setExistingBody e (new_body g s).1
                          (default VUndefined (f !! "addToWorld")) (new_body g s).2).2).
    { subst s'. unfold setBody. cbn [config_truthy negb]. by rewrite Hbuild. }
    rewrite Hs', seb_vertices. unfold obj_at, new_body. cbn [snd heap].
    by rewrite lookup_insert_ne.
Qed.

(** The in-place path attaches the body again: after the vertices were
    replaced, the body is in the world exactly when [config.addToWorld] is
    truthy or absent, whether or not it was before, its hook is installed
    anew, and no other body enters or leaves the world. *)
Theorem fromVertices_in_place_membership e f options s t verts cur :
  f !! "type" = Some (VStr t) →
  t = "fromVertices" ∨ t = "fromVerts" →
  vertex_source f = Some verts →
  body (ent_at s e) = Some cur →
  has_temp (obj_at s cur) = false →
  let s' := (setBody e (CObj f) options s).2 in
  in_world cur s' = adds (default VUndefined (f !! "addToWorld"))
  ∧ destroy (obj_at s' cur) = Some e
  ∧ world s' ∖ {[cur]} = world s ∖ {[cur]}.
Proof.
  intros Htype Ht Hsrc Hbody Htemp s'.
  destruct (vertex_source_resolved f verts Hsrc) as [Htruthy Hverts].
  assert (Hk : switch_case (VStr t) = Some KFromVertices) by (by destruct Ht as [->| ->]).
  assert (Hs' : s' = (setExistingBody e cur (default VUndefined (f !! "addToWorld"))
                        (Body_setVertices cur verts s)).2).
  { subst s'. unfold setBody, build_body. cbn [config_truthy negb].
    rewrite (GetFastValue_type f t Htype), Hk, Htruthy, Hverts.
    rewrite Hbody, Htemp. done. }
  assert (Hheld : body (ent_at (Body_setVertices cur verts s) e) = Some cur) by done.
  destruct (seb_held e cur (default VUndefined (f !! "addToWorld")) _ Hheld)
    as (Hin & Hrest).
  rewrite Hs'. split; [exact Hin|]. split; [|exact Hrest].
  rewrite seb_destroy. by rewrite decide_True.
Qed.

(** ** The world under the dispatcher *)

Lemma setBody_slot_other e cfg options s e' :
  e' ≠ e → ent_at (setBody e cfg options s).2 e' = ent_at s e'.
Proof.
  intros He. destruct (setBody_shape e cfg options s) as [->|(b & a & s1 & -> & _ & Hent)];
    [done|].
  destruct (seb_ent e b a s1 e') as (x & y & ->). rewrite decide_False by done.
  unfold ent_at. by rewrite Hent.
Qed.

(** Whatever the configuration, [setBody] adds to the world no body but
    the one it leaves in the slot, removes from the world no body but the
    one it found in the slot, and changes no other game object. *)
Theorem setBody_world_delta e cfg options s :
  let s' := (setBody e cfg options s).2 in
  world s' ⊆ world s ∪ slot_set s' e
  ∧ world s ∖ slot_set s e ⊆ world s'
  ∧ ∀ e', e' ≠ e → ent_at s' e' = ent_at s e'.
Proof.
  intros s'. split; [|split].
  - subst s'. destruct (setBody_shape e cfg options s) as [->|(b & a & s1 & -> & Hw & Hent)];
      [set_solver|].
    rewrite seb_slot_set, seb_world, Hw. destruct (adds a); set_solver.
  - subst s'. destruct (setBody_shape e cfg options s) as [->|(b & a & s1 & -> & Hw & Hent)];
      [set_solver|].
    rewrite seb_world, Hw. unfold slot_set, ent_at. rewrite Hent.
    destruct (adds a); set_solver.
  - intros e' He. by apply setBody_slot_other.
Qed.

Lemma seb_tracked e b a s1 s :
  world s1 = world s → entities s1 = entities s →
  tracked s → tracked (setExistingBody e b a s1).2.
Proof.
  intros Hw Hent Htr b0 Hb0. rewrite seb_world in Hb0.
  destruct (decide (b0 = b)) as [->|Hne].
  - exists e. rewrite seb_body. by rewrite decide_True.
  - assert (Hin : b0 ∈ world s ∧ b0 ∉ slot_set s1 e).
    { rewrite <- Hw. destruct (adds a); set_solver. }
    destruct Hin as [Hin Hslot]. destruct (Htr b0 Hin) as [e0 He0].
    assert (Hs1 : ent_at s1 e0 = ent_at s e0) by (unfold ent_at; by rewrite Hent).
    exists e0. rewrite seb_body.
    destruct (decide (e = e0)) as [->|]; [|by rewrite Hs1].
    exfalso. apply Hslot. unfold slot_set. rewrite Hs1, He0. set_solver.
Qed.

Lemma step_tracked o s : tracked s → tracked (step o s).
Proof.
  intros Htr. destruct o as [e b a|e cfg options|b]; cbn [step].
  - by apply (seb_tracked e b a s s).
  - destruct (setBody_shape e cfg options s) as [->|(b & a & s1 & -> & Hw & Hent)]; [done|].
    by apply (seb_tracked e b a s1 s).
  - unfold call_destroy, destroy_hook.
    destruct (destroy (obj_at s b)) as [e|]; [|done].
    destruct (body (ent_at s e)) as [cur|]; [|done].
    intros b0 Hb0. cbn in Hb0. destruct (Htr b0) as [e0 He0]; [set_solver|].
    by exists e0.
Qed.

(** Through every sequence of attachments, dispatches and hook calls, on
    any game objects, a body that is in the simulation world is in the
    slot of some game object, provided this holds at the start. *)
Theorem run_keeps_world_tracked ops s :
  tracked s → tracked (run ops s).
Proof.
  revert s. induction ops as [|o ops IH]; intros s Htr; [done|].
  apply (IH (step o s)). by apply step_tracked.
Qed.

(** ** Defaults and explicit fields of the other shapes *)

Lemma GetFastValue_lookup f key v d :
  f !! key = Some v → GetFastValue (CObj f) key d = or_default v d.
Proof. unfold GetFastValue. intros ->. by destruct v. Qed.

Lemma GetFastValue_none f key d :
  f !! key = None → GetFastValue (CObj f) key d = d.
Proof. unfold GetFastValue. by intros ->. Qed.

(** A trapezoid configuration without slope is built with slope 0.5 over
    the resolved position and size. *)
Theorem trapezoid_defaults e f options s :
  f !! "type" = Some (VStr "trapezoid") →
  has_field f "slope" = false →
  let en := ent_at s e in
  let s' := (setBody e (CObj f) options s).2 in
  ∃ r, body (ent_at s' e) = Some r
    ∧ geom (obj_at s' r)
      = Some (Trapezoid (GetFastValue (CObj f) "x" (tempVec2 en).1)
                (GetFastValue (CObj f) "y" (tempVec2 en).2)
                (GetFastValue (CObj f) "width" (width en))
                (GetFastValue (CObj f) "height" (height en))
                (VNum (Fin (1 # 2))) options).
Proof.
  intros Htype Hslope en s'.
  eset (g := Trapezoid _ _ _ _ _ options).
  assert (Hbuild : build_body e (CObj f) options s
                   = (Some (new_body g s).1, (new_body g s).2)).
  { unfold build_body. rewrite (GetFastValue_type f "trapezoid" Htype).
    cbn [switch_case]. rewrite (GetFastValue_lacking f "slope") by done. done. }
  destruct (setBody_attaches_new e f options s g Hbuild) as (_ & Hslot & Hgeom & _).
  by exists (fresh (dom (heap s))).
Qed.

(** A fromPhysicsEditor configuration is handed to the parser whole, with
    the resolved position and size, and the body the parser returns is
    attached. *)
Theorem physics_editor_delegates e f options s :
  f !! "type" = Some (VStr "fromPhysicsEditor") →
  let en := ent_at s e in
  let s' := (setBody e (CObj f) options s).2 in
  ∃ r, (r ∉ dom (heap s))
    ∧ body (ent_at s' e) = Some r
    ∧ geom (obj_at s' r)
      = Some (FromPhysicsEditor (GetFastValue (CObj f) "x" (tempVec2 en).1)
                (GetFastValue (CObj f) "y" (tempVec2 en).2)
                (GetFastValue (CObj f) "width" (width en))
                (GetFastValue (CObj f) "height" (height en)) f).
Proof.
  intros Htype en s'.
  eset (g := FromPhysicsEditor _ _ _ _ f).
  assert (Hbuild : build_body e (CObj f) options s
                   = (Some (new_body g s).1, (new_body g s).2)).
  { unfold build_body. rewrite (GetFastValue_type f "fromPhysicsEditor" Htype). done. }
  destruct (setBody_attaches_new e f options s g Hbuild) as (Hfresh & Hslot & Hgeom & _).
  by exists (fresh (dom (heap s))).
Qed.

(** An explicit radius and an explicit position reach the circle factory
    as they are, whatever they are and whatever the size of the game
    object: nothing is validated. *)
Theorem circle_explicit_fields e f options s x y radius :
  f !! "type" = Some (VStr "circle") →
  f !! "x" = Some x → f !! "y" = Some y → f !! "radius" = Some radius →
  x ≠ VUndefined → y ≠ VUndefined → radius ≠ VUndefined →
  let s' := (setBody e (CObj f) options s).2 in
  ∃ r, body (ent_at s' e) = Some r
    ∧ geom (obj_at s' r)
      = Some (Circle x y radius options (GetFastValue (CObj f) "maxSides" (num 25))).
Proof.
  intros Htype Hx Hy Hr Hxu Hyu Hru s'.
  set (g := Circle x y radius options (GetFastValue (CObj f) "maxSides" (num 25))).
  assert (Hbuild : build_body e (CObj f) options s
                   = (Some (new_body g s).1, (new_body g s).2)).
  { unfold build_body. rewrite (GetFastValue_type f "circle" Htype).
    cbn [switch_case].
    rewrite (GetFastValue_lookup f "x" x), (GetFastValue_lookup f "y" y),
      (GetFastValue_lookup f "radius" radius) by done.
    subst g. by destruct x, y, radius. }
  destruct (setBody_attaches_new e f options s g Hbuild) as (_ & Hslot & Hgeom & _).
  by exists (fresh (dom (heap s))).
Qed.

(** ** The bodies the builders make *)

Ltac resolve_fields :=
  repeat match goal with
  | |- context [GetFastValue (CObj ?f) ?k ?d] =>
      first [ rewrite (GetFastValue_none f k d) by (vm_compute; reflexivity)
            | erewrite (GetFastValue_lookup f k _ d) by (vm_compute; reflexivity) ]
  end.

(** Each builder places its body at the position vector of the game
    object and takes the width and height of the game object, half their
    maximum, 5 sides, 25 sides at most and slope 0.5 where its argument is
    [undefined] or the shape has no such argument. *)
Theorem builders_geometry e s options w h radius sides slope :
  let en := ent_at s e in
  let r := fresh (dom (heap s)) in
  let x := (tempVec2 en).1 in
  let y := (tempVec2 en).2 in
  let half := half_max (width en) (height en) in
  geom (obj_at (setRectangle e w h options s).2 r)
  = Some (Rectangle x y (or_default w (width en)) (or_default h (height en)) options)
  ∧ geom (obj_at (setCircle e radius options s).2 r)
    = Some (Circle x y (or_default radius half) options (num 25))
  ∧ geom (obj_at (setPolygon e radius sides options s).2 r)
    = Some (Polygon x y (or_default sides (num 5)) (or_default radius half) options)
  ∧ geom (obj_at (setTrapezoid e w h slope options s).2 r)
    = Some (Trapezoid x y (or_default w (width en)) (or_default h (height en))
              (or_default slope (VNum (Fin (1 # 2)))) options).
Proof.
  intros en r x y half.
  split; [|split; [|split]].
  - eapply setBody_attaches_new. unfold build_body. resolve_fields. reflexivity.
  - eapply setBody_attaches_new. unfold build_body. resolve_fields. reflexivity.
  - eapply setBody_attaches_new. unfold build_body. resolve_fields. reflexivity.
  - eapply setBody_attaches_new. unfold build_body. resolve_fields. reflexivity.
Qed.

End DispatcherEdges.

(** ** The further properties at the sample scenes *)

(** Giving the sprite body 2 leaves the tile and body 1 as they were. *)
Lemma attach_frame_at_scene :
  ent_at scene2 1 = tile ∧ obj_at scene2 1 = obj_at scene1 1.
Proof.
  destruct (attach_frame 0 2 VUndefined scene1 1 1
              ltac:(discriminate) ltac:(discriminate)
              ltac:(vm_compute; intros [Heq|Hin]%elem_of_cons;
                    [discriminate|by apply elem_of_nil in Hin]))
    as (Hent & Hobj & _).
  split; [exact Hent|exact Hobj].
Defined.

(** Attaching body 1 again to the sprite, without adding it, takes it out
    of the world. *)
Lemma attach_held_body_at_scene :
  in_world 1 scene1 = true
  ∧ in_world 1 (setExistingBody 0 1 (VBool false) scene1).2 = false.
Proof.
  destruct (attach_held_body 0 1 (VBool false) scene1 ltac:(vm_compute; reflexivity))
    as (_ & Hin & _).
  split; [vm_compute; reflexivity|exact Hin].
Defined.

(** Body 1 given to the sprite, then to the tile; the sprite then takes
    body 2. *)
Lemma shared_body_leaves_world_at_scene :
  let s2 := (setExistingBody 1 1 VUndefined scene1).2 in
  let s3 := (setExistingBody 0 2 VUndefined s2).2 in
  in_world 1 s2 = true ∧ body (ent_at s3 1) = Some 1 ∧ in_world 1 s3 = false.
Proof.
  intros s2 s3.
  destruct (shared_body_leaves_world 0 1 1 2 VUndefined VUndefined VUndefined scene
              ltac:(discriminate) ltac:(discriminate))
    as (_ & _ & _ & Hslot & Hout).
  split; [vm_compute; reflexivity|]. split; [exact Hslot|exact Hout].
Defined.

Lemma unknown_kind_is_noop_at_scene :
  @setBody plain 0 (CObj kite_cfg) VNull scene1 = (0, scene1).
Proof.
  apply (@unknown_kind_is_noop plain 0 kite_cfg (VStr "kite"));
    [vm_compute; reflexivity|discriminate|vm_compute; reflexivity].
Defined.

Lemma fromVertices_without_source_at_scene :
  @setBody plain 0 (CObj no_verts_cfg) VNull scene1 = (0, scene1).
Proof.
  apply (@fromVertices_without_source plain 0 no_verts_cfg "fromVertices");
    [vm_compute; reflexivity|left; reflexivity|vm_compute; reflexivity].
Defined.

Lemma fromVertices_replaces_transient_at_scene :
  in_world 1 scene_temp = true
  ∧ ∃ r, r ≠ 1
      ∧ body (ent_at (@setBody plain 0 (CObj path_cfg) VNull scene_temp).2 0) = Some r
      ∧ in_world 1 (@setBody plain 0 (CObj path_cfg) VNull scene_temp).2 = false.
Proof.
  split; [vm_compute; reflexivity|].
  destruct (@fromVertices_replaces_transient plain 0 path_cfg VNull scene_temp "fromVerts"
              (VPoints [(Fin (inject_Z 0), Fin (inject_Z 0))]) 1
              ltac:(vm_compute; reflexivity) ltac:(right; reflexivity)
              ltac:(vm_compute; reflexivity) ltac:(vm_compute; reflexivity)
              ltac:(vm_compute; reflexivity))
    as (r & Hne & Hslot & _ & Hout & _).
  exists r. split; [exact Hne|]. split; [exact Hslot|exact Hout].
Defined.

Lemma fromVertices_in_place_membership_at_scene :
  in_world 1 scene1 = true
  ∧ in_world 1 (@setBody plain 0 (CObj hidden_path_cfg) VNull scene1).2 = false.
Proof.
  split; [vm_compute; reflexivity|].
  destruct (@fromVertices_in_place_membership plain 0 hidden_path_cfg VNull scene1
              "fromVerts" (VPoints [(Fin (inject_Z 0), Fin (inject_Z 0))]) 1
              ltac:(vm_compute; reflexivity) ltac:(right; reflexivity)
              ltac:(vm_compute; reflexivity) ltac:(vm_compute; reflexivity)
              ltac:(vm_compute; reflexivity))
    as (Hin & _ & _).
  exact Hin.
Defined.

Lemma run_keeps_world_tracked_at_scene :
  tracked (@run plain [OAttach 0 1 VUndefined; OSetBody 1 (CStr "circle") VNull;
                       ODestroy 1; OAttach 1 1 (VBool false)] scene).
Proof.
  apply (@run_keeps_world_tracked plain).
  intros b Hb. by apply elem_of_empty in Hb.
Defined.

Lemma trapezoid_defaults_at_scene :
  ∃ r, body (ent_at (@setBody plain 0 (CObj trapezoid_cfg) VNull scene).2 0) = Some r
    ∧ geom (obj_at (@setBody plain 0 (CObj trapezoid_cfg) VNull scene).2 r)
      = Some (Trapezoid (num 0) (num 0) (num 8) (num 20) (VNum (Fin (1 # 2))) VNull).
Proof.
  destruct (@trapezoid_defaults plain 0 trapezoid_cfg VNull scene
              ltac:(vm_compute; reflexivity) ltac:(vm_compute; reflexivity))
    as (r & Hslot & Hgeom).
  exists r. split; [exact Hslot|exact Hgeom].
Defined.

Lemma physics_editor_delegates_at_scene :
  ∃ r, body (ent_at (@setBody plain 0 (CObj editor_cfg) VNull scene).2 0) = Some r
    ∧ geom (obj_at (@setBody plain 0 (CObj editor_cfg) VNull scene).2 r)
      = Some (FromPhysicsEditor (num 5) (num 0) (num 40) (num 20) editor_cfg).
Proof.
  destruct (@physics_editor_delegates plain 0 editor_cfg VNull scene
              ltac:(vm_compute; reflexivity))
    as (r & _ & Hslot & Hgeom).
  exists r. split; [exact Hslot|exact Hgeom].
Defined.

Lemma circle_explicit_fields_at_scene :
  ∃ r, body (ent_at (@setBody plain 0 (CObj disc_cfg) VNull scene).2 0) = Some r
    ∧ geom (obj_at (@setBody plain 0 (CObj disc_cfg) VNull scene).2 r)
      = Some (Circle (num 1) (num 2) (num (-3)) VNull (num 25)).
Proof.
  destruct (@circle_explicit_fields plain 0 disc_cfg VNull scene
              (num 1) (num 2) (num (-3))
              ltac:(vm_compute; reflexivity) ltac:(vm_compute; reflexivity)
              ltac:(vm_compute; reflexivity) ltac:(vm_compute; reflexivity)
              ltac:(discriminate) ltac:(discriminate) ltac:(discriminate))
    as (r & Hslot & Hgeom).
  exists r. split; [exact Hslot|exact Hgeom].
Defined.
